(** * fasta_script.py: CSV to FASTA extraction

    A shallow embedding of [create_fasta_from_csv] (src/fasta_script.py) and
    of the part of Python's [csv.DictReader] it relies on, followed by the
    properties of the extraction.

    Conventions of the embedding.
    - A Python [str] is a [string]; one [ascii] stands for one character
      (the code points below 256).
    - A value that is either a [str] or [None] is an [option string].
    - A row produced by [DictReader] is a [gmap string (option string)].
    - The file system is an input: what opening the CSV path yields, and
      what opening the output path yields.
    - The output file is the list of the strings passed to [outfile.write],
      in order; [None] when the file was never opened.
    - The messages printed by the function are kept as a [result]. *)

From Stdlib Require Import String Ascii List Arith Lia.
From stdpp Require Import base option list strings gmap.

Local Open Scope string_scope.

(** ** Python strings *)

Module PyStr.

(** [str.isspace] on the code points below 256:
    9-13, 28-31, 32, 133 and 160. *)
Definition isspace (c : ascii) : bool :=
  let n := nat_of_ascii c in
  ((9 <=? n)%nat && (n <=? 13)%nat) || ((28 <=? n)%nat && (n <=? 32)%nat)
  || (n =? 133)%nat || (n =? 160)%nat.

(** Python truthiness of a [str]: non-empty. *)
Definition truthy (s : string) : bool :=
  match s with
  | EmptyString => false
  | String _ _ => true
  end.

Fixpoint lstrip (s : string) : string :=
  match s with
  | EmptyString => EmptyString
  | String c s' => if isspace c then lstrip s' else s
  end.

Fixpoint rstrip (s : string) : string :=
  match s with
  | EmptyString => EmptyString
  | String c s' =>
      let r := rstrip s' in
      if isspace c && negb (truthy r) then EmptyString else String c r
  end.

(** [s.strip()] *)
Definition strip (s : string) : string := rstrip (lstrip s).

(** [s[i:j]] for [0 <= i <= j]; the slice is cut at the end of [s]. *)
Definition slice (i j : nat) (s : string) : string := substring i (j - i) s.

(** [range(0, stop, step)] for [step > 0]. *)
Definition range0 (stop step : nat) : list nat :=
  map (fun k => k * step) (seq 0 ((stop + step - 1) / step)).

(** [''.join(l)] *)
Definition join (l : list string) : string :=
  fold_right String.append EmptyString l.

(** A [str] or [None] inside an f-string: [f"{v}"]. *)
Definition format (v : option string) : string :=
  match v with
  | Some s => s
  | None => "None"
  end.

End PyStr.

(** The line terminator written by the code: ['\n']. *)
Definition LF : ascii := ascii_of_nat 10.
Definition NL : string := String LF EmptyString.

(** ** csv.DictReader *)

Module DictReader.

(** [dict(zip(fieldnames, row))]: later pairs overwrite earlier ones. *)
Definition dict_of_zip (fieldnames row : list string)
  : gmap string (option string) :=
  foldl (fun d kv => <[kv.1 := Some kv.2]> d) ∅ (zip fieldnames row).

(** One row as [DictReader.__next__] builds it.  A short row gets
    [restval = None] for each missing field name.  A long row stores the
    extra fields under the key [restkey = None], which is not a [str] and
    is never read by the program; the embedding leaves that entry out. *)
Definition row_dict (fieldnames row : list string)
  : gmap string (option string) :=
  let d := dict_of_zip fieldnames row in
  let lf := length fieldnames in
  let lr := length row in
  if (lf <? lr)%nat then d
  else if (lr <? lf)%nat
       then foldl (fun d key => <[key := None]> d) d (drop lr fieldnames)
       else d.

(** [reader.fieldnames]: the first row of the underlying reader, [None]
    when there is none. *)
Definition fieldnames (lines : list (list string)) : option (list string) :=
  head lines.

(** The rows the [for] loop sees: blank rows ([row == []]) are skipped. *)
Definition rows (lines : list (list string))
  : list (gmap string (option string)) :=
  match lines with
  | [] => []
  | h :: rest =>
      map (row_dict h) (List.filter (fun r => negb (Nat.eqb (length r) 0)) rest)
  end.

(** [row.get(key, default)] *)
Definition get (d : gmap string (option string)) (key : string)
           (default : option string) : option string :=
  match d !! key with
  | Some v => v
  | None => default
  end.

End DictReader.

(** ** The extraction: create_fasta_from_csv *)

(** The exceptions the function can meet.  [FileNotFoundError] has its own
    [except] clause; every other one falls into [except Exception]. *)
Inductive exn : Type :=
| FileNotFoundError
| OSError (msg : string)
| TypeError
| AttributeError.

(** What [open] yields: the opened file, or the exception it raises. *)
Inductive opened (A : Type) : Type :=
| Opened (a : A)
| OpenFails (e : exn).
Arguments Opened {A} a.
Arguments OpenFails {A} e.

(** What the function reports: the completion message with its count, the
    missing headers message with the expected and the found headers, the
    message of [except FileNotFoundError], or the one of [except Exception]. *)
Inductive result : Type :=
| Success (extracted_count : nat)
| MissingColumns (expected : list string) (found : list string)
| SourceNotFound
| Unexpected (e : exn).

(** The report and the output file after the call: [None] when the output
    path was never opened, [Some ws] when it was opened with mode ['w']
    (hence truncated) and received the writes [ws] in order. *)
Record outcome : Type := Outcome {
  res : result;
  sink : option (list string)
}.

Definition ID_COLUMN : string := "SEQ_ID".
Definition NAME_COLUMN : string := "SHORT_NAME".
Definition SEQUENCE_COLUMN : string := "PROTEIN_SEQUENCE".

Definition required_headers : list string :=
  [ID_COLUMN; NAME_COLUMN; SEQUENCE_COLUMN].

(** The two [except] clauses. *)
Definition except_clauses (e : exn) : result :=
  match e with
  | FileNotFoundError => SourceNotFound
  | _ => Unexpected e
  end.

(** Truth value of
    [extract_all_flag or (seq_id and seq_id in target_ids)]. *)
Definition is_match (extract_all_flag : bool) (target_ids : gset string)
           (seq_id : option string) : bool :=
  extract_all_flag
  || match seq_id with
     | Some s => PyStr.truthy s && bool_decide (s ∈ target_ids)
     | None => false
     end.

(** The writes of the inner loop:
    [for i in range(0, len(p), 60): outfile.write(p[i:i+60] + '\n')]. *)
Definition sequence_lines (protein_sequence : string) : list string :=
  map (fun i => PyStr.slice i (i + 60) protein_sequence +:+ NL)
      (PyStr.range0 (String.length protein_sequence) 60).

(** [outfile.write(f">{fasta_name}\n")] *)
Definition header_line (fasta_name : string) : string :=
  ">" +:+ fasta_name +:+ NL.

(** The state of the loop over the rows: [extracted_count] and the writes
    made so far. *)
Definition loop_state : Type := nat * list string.

(** The body of [for row in reader].  [None.strip()] raises
    [AttributeError] before anything is written for the row. *)
Definition loop_body (extract_all_flag : bool) (target_ids : gset string)
           (st : loop_state) (row : gmap string (option string))
  : exn + loop_state :=
  let '(extracted_count, written) := st in
  let seq_id := DictReader.get row ID_COLUMN None in
  if is_match extract_all_flag target_ids seq_id then
    let short_name := DictReader.get row NAME_COLUMN (Some "N/A") in
    match DictReader.get row SEQUENCE_COLUMN (Some "") with
    | None => inl AttributeError
    | Some field =>
        let protein_sequence := PyStr.strip field in
        let fasta_name := PyStr.format seq_id +:+ "_" +:+ PyStr.format short_name in
        if PyStr.truthy protein_sequence then
          inr (extracted_count + 1,
               (written ++ header_line fasta_name
                  :: sequence_lines protein_sequence)%list)
        else inr (extracted_count, written)
    end
  else inr st.

(** [for row in reader: ...], stopping at the first exception. *)
Fixpoint for_rows (extract_all_flag : bool) (target_ids : gset string)
         (rows : list (gmap string (option string))) (st : loop_state)
  : option exn * loop_state :=
  match rows with
  | [] => (None, st)
  | row :: rest =>
      match loop_body extract_all_flag target_ids st row with
      | inl e => (Some e, st)
      | inr st' => for_rows extract_all_flag target_ids rest st'
      end
  end.

(** [all(header in reader.fieldnames for header in required_headers)] *)
Definition has_required_headers (fieldnames : list string) : bool :=
  forallb (fun header => bool_decide (header ∈ fieldnames)) required_headers.

(** [create_fasta_from_csv(csv_filepath, output_filepath, target_ids,
    extract_all_flag)].  [csv_file] is what [open(csv_filepath)] yields, as
    the rows of fields [csv.reader] parses from it; [output_file] is what
    [open(output_filepath, mode='w')] yields. *)
Definition create_fasta_from_csv
           (csv_file : opened (list (list string))) (output_file : opened unit)
           (target_ids : gset string) (extract_all_flag : bool) : outcome :=
  match csv_file with
  | OpenFails e => Outcome (except_clauses e) None
  | Opened lines =>
      match DictReader.fieldnames lines with
      | None => Outcome (except_clauses TypeError) None
      | Some fieldnames =>
          if negb (has_required_headers fieldnames) then
            Outcome (MissingColumns required_headers fieldnames) None
          else
            match output_file with
            | OpenFails e => Outcome (except_clauses e) None
            | Opened _ =>
                match for_rows extract_all_flag target_ids
                               (DictReader.rows lines) (0, []) with
                | (Some e, (_, written)) =>
                    Outcome (except_clauses e) (Some written)
                | (None, (extracted_count, written)) =>
                    Outcome (Success extracted_count) (Some written)
                end
            end
      end
  end.

(** ** The entry point: the [__main__] block *)

Module PyInput.

(** [c.lower()] on the code points below 256: the letters A-Z and the
    capital letters 192-214 and 216-222 move up by 32. *)
Definition lower_char (c : ascii) : ascii :=
  let n := nat_of_ascii c in
  if ((65 <=? n)%nat && (n <=? 90)%nat)
     || ((192 <=? n)%nat && (n <=? 214)%nat)
     || ((216 <=? n)%nat && (n <=? 222)%nat)
  then ascii_of_nat (n + 32) else c.

(** [s.lower()] *)
Fixpoint lower (s : string) : string :=
  match s with
  | EmptyString => EmptyString
  | String c rest => String (lower_char c) (lower rest)
  end.

(** [s.split(sep)] for a separator of one character: the pieces between
    the separators, empty pieces included; never the empty list. *)
Fixpoint split (sep : ascii) (s : string) : list string :=
  match s with
  | EmptyString => [EmptyString]
  | String c rest =>
      if Ascii.eqb c sep then EmptyString :: split sep rest
      else match split sep rest with
           | [] => [String c EmptyString]
           | piece :: pieces => String c piece :: pieces
           end
  end.

End PyInput.

Definition COMMA : ascii := ",".

(** What the program sees of the file system: whether a path exists, and
    what opening a path for reading or for writing yields. *)
Record filesystem : Type := Filesystem {
  path_exists : string -> bool;
  open_read : string -> opened (list (list string));
  open_write : string -> opened ()
}.

(** [EXTRACT_ALL = id_input.lower() == "all"] *)
Definition EXTRACT_ALL (id_input : string) : bool :=
  String.eqb (PyInput.lower id_input) "all".

(** [[id.strip() for id in id_input.split(',') if id.strip()]] *)
Definition TARGET_IDS_LIST (id_input : string) : list string :=
  List.filter PyStr.truthy (map PyStr.strip (PyInput.split COMMA id_input)).

(** [TARGET_IDS_SET]: empty unless [not EXTRACT_ALL], then
    [set(TARGET_IDS_LIST)]. *)
Definition TARGET_IDS_SET (id_input : string) : gset string :=
  if EXTRACT_ALL id_input then ∅ else list_to_set (TARGET_IDS_LIST id_input).

(** What the entry point does: it prints that the operation is cancelled,
    or that the input CSV file was not found, or it calls
    [create_fasta_from_csv]. *)
Inductive main_report : Type :=
| Cancelled
| InputNotFound (path : string)
| Ran (o : outcome).

(** The [__main__] block; [line1], [line2] and [line3] are the three
    lines [input] returns. *)
Definition main (fs : filesystem) (line1 line2 line3 : string) : main_report :=
  let INPUT_CSV_FILE := PyStr.strip line1 in
  let OUTPUT_FASTA_FILE := PyStr.strip line2 in
  let id_input := PyStr.strip line3 in
  if negb (EXTRACT_ALL id_input)
     && bool_decide (TARGET_IDS_SET id_input = ∅) then Cancelled
  else if negb (path_exists fs INPUT_CSV_FILE) then
    InputNotFound INPUT_CSV_FILE
  else
    Ran (create_fasta_from_csv
           (open_read fs INPUT_CSV_FILE) (open_write fs OUTPUT_FASTA_FILE)
           (TARGET_IDS_SET id_input) (EXTRACT_ALL id_input)).

(** The word all in every mixture of lower and upper case letters. *)
Definition all_spellings : list string :=
  ["all"; "alL"; "aLl"; "aLL"; "All"; "AlL"; "ALl"; "ALL"].

(** Every character of a string satisfies [P]. *)
Fixpoint forall_chars (P : ascii -> bool) (s : string) : bool :=
  match s with
  | EmptyString => true
  | String c rest => P c && forall_chars P rest
  end.

(** A written string ends with the line terminator. *)
Definition ends_with_NL (w : string) : Prop := exists c, w = c +:+ NL.

(** ** The reading side, for the round trip

    The program only writes.  To state that the line wrapping can be undone,
    a written line is read back by removing its line terminator. *)

(** A written line without its final line terminator. *)
Fixpoint strip_terminator (line : string) : string :=
  match line with
  | EmptyString => EmptyString
  | String c rest =>
      match rest with
      | EmptyString => if Ascii.eqb c LF then EmptyString else line
      | String _ _ => String c (strip_terminator rest)
      end
  end.

(** The lines of a text as a reader of the file sees them: the text is cut
    at every line feed, and the line feeds are dropped.  [cur] holds the
    characters of the line being read. *)
Fixpoint lines_from (cur : string) (text : string) : list string :=
  match text with
  | EmptyString =>
      match cur with
      | EmptyString => []
      | String _ _ => [cur]
      end
  | String c rest =>
      if Ascii.eqb c LF then cur :: lines_from EmptyString rest
      else lines_from (cur +:+ String c EmptyString) rest
  end.

(** The text contains no line feed. *)
Fixpoint no_LF (s : string) : bool :=
  match s with
  | EmptyString => true
  | String c rest => negb (Ascii.eqb c LF) && no_LF rest
  end.

(** The chunks [p[i:i+60]] of the inner loop, without their terminators. *)
Definition chunks (protein_sequence : string) : list string :=
  map (fun i => PyStr.slice i (i + 60) protein_sequence)
      (PyStr.range0 (String.length protein_sequence) 60).

(** ** What a run is expected to leave behind

    The descriptions below restate the loop row by row; the theorems relate
    them to [for_rows] and [create_fasta_from_csv]. *)

(** The three values the loop body reads from a row. *)
Definition row_seq_id (row : gmap string (option string)) : option string :=
  DictReader.get row ID_COLUMN None.
Definition row_short_name (row : gmap string (option string)) : option string :=
  DictReader.get row NAME_COLUMN (Some "N/A").
Definition row_sequence (row : gmap string (option string)) : option string :=
  DictReader.get row SEQUENCE_COLUMN (Some "").

(** The row matches and its sequence value is [None]: [.strip()] raises. *)
Definition row_raises (extract_all_flag : bool) (target_ids : gset string)
           (row : gmap string (option string)) : bool :=
  is_match extract_all_flag target_ids (row_seq_id row)
  && match row_sequence row with
     | None => true
     | Some _ => false
     end.

(** The row matches and its trimmed payload is non-empty. *)
Definition row_emitted (extract_all_flag : bool) (target_ids : gset string)
           (row : gmap string (option string)) : bool :=
  is_match extract_all_flag target_ids (row_seq_id row)
  && match row_sequence row with
     | None => false
     | Some field => PyStr.truthy (PyStr.strip field)
     end.

(** The FASTA entry of a row: header line, then the wrapped payload. *)
Definition row_entry (row : gmap string (option string)) : list string :=
  match row_sequence row with
  | None => []
  | Some field =>
      header_line (PyStr.format (row_seq_id row) +:+ "_"
                   +:+ PyStr.format (row_short_name row))
      :: sequence_lines (PyStr.strip field)
  end.

(** The entries of the emitted rows, in row order. *)
Definition entries (extract_all_flag : bool) (target_ids : gset string)
           (rows : list (gmap string (option string))) : list string :=
  flat_map row_entry (List.filter (row_emitted extract_all_flag target_ids) rows).

(** The number of emitted rows. *)
Definition emitted_count (extract_all_flag : bool) (target_ids : gset string)
           (rows : list (gmap string (option string))) : nat :=
  length (List.filter (row_emitted extract_all_flag target_ids) rows).

(** The header in the order of the specification's examples. *)
Definition standard_header : list string :=
  ["SEQ_ID"; "SHORT_NAME"; "PROTEIN_SEQUENCE"].

(** [s[n:]], used in the proofs to walk through a payload chunk by chunk. *)
Fixpoint sdrop (n : nat) (s : string) : string :=
  match n, s with
  | 0, _ => s
  | S _, EmptyString => EmptyString
  | S n', String _ s' => sdrop n' s'
  end.


(** * Properties *)

(** Closes a decidable closed goal (membership in a list or a set of
    strings) by evaluating its decision procedure. *)
Ltac by_decision := apply (bool_decide_unpack _); vm_compute; exact I.

(** ** Strings and slices *)

Section StringFacts.

Lemma sdrop_length n s : String.length (sdrop n s) = String.length s - n.
Proof.
  revert s; induction n as [|n IH]; intros [|c s]; simpl; auto with arith.
Qed.

Lemma substring_shift n i m s :
  substring (n + i) m s = substring i m (sdrop n s).
Proof.
  revert s; induction n as [|n IH]; intros s; simpl; [done|].
  destruct s as [|c s]; simpl; [|apply IH].
  destruct i, m; reflexivity.
Qed.

Lemma substring_0_sdrop n s : substring 0 n s +:+ sdrop n s = s.
Proof.
  revert s; induction n as [|n IH]; intros [|c s]; simpl; try done.
  change (String c (substring 0 n s +:+ sdrop n s) = String c s).
  f_equal. apply IH.
Qed.


Lemma strip_terminator_app_NL (c : string) : strip_terminator (c +:+ NL) = c.
Proof.
  induction c as [|a c IH]; [reflexivity|].
  change ((String a c) +:+ NL) with (String a (c +:+ NL)).
  simpl strip_terminator. rewrite IH.
  destruct c; reflexivity.
Qed.

End StringFacts.

(** ** Line wrapping *)

Section Wrapping.

Lemma slice_width i s : PyStr.slice i (i + 60) s = substring i 60 s.
Proof. unfold PyStr.slice. f_equal. lia. Qed.

Lemma chunks_by_index p :
  chunks p =
  map (fun k => substring (k * 60) 60 p) (seq 0 ((String.length p + 59) / 60)).
Proof.
  unfold chunks, PyStr.range0.
  replace (String.length p + 60 - 1) with (String.length p + 59) by lia.
  rewrite map_map. apply map_ext. intros k. apply slice_width.
Qed.

Lemma sequence_lines_chunks p :
  sequence_lines p = map (fun c => c +:+ NL) (chunks p).
Proof. unfold sequence_lines, chunks. by rewrite map_map. Qed.

(** Bounds on the number of chunks [q = ceil(n / 60)]. *)
Lemma chunk_count_bounds n :
  60 * ((n + 59) / 60) <= n + 59 /\ n <= 60 * ((n + 59) / 60).
Proof.
  pose proof (Nat.div_mod_eq (n + 59) 60) as Hdm.
  pose proof (Nat.mod_upper_bound (n + 59) 60) as Hlt.
  lia.
Qed.

Lemma join_substrings m : forall s,
  String.length s <= m * 60 ->
  PyStr.join (map (fun k => substring (k * 60) 60 s) (seq 0 m)) = s.
Proof.
  induction m as [|m IH]; intros s Hlen.
  - destruct s; [reflexivity | simpl in Hlen; lia].
  - rewrite <- cons_seq, <- seq_shift, map_cons, map_map.
    unfold PyStr.join; simpl fold_right; fold (PyStr.join).
    change (0 * 60) with 0.
    rewrite (map_ext _ (fun k => substring (k * 60) 60 (sdrop 60 s))).
    + rewrite IH; [apply substring_0_sdrop|].
      rewrite sdrop_length. lia.
    + intros k. rewrite <- (substring_shift 60 (k * 60) 60 s).
      reflexivity.
Qed.

Lemma join_chunks p : PyStr.join (chunks p) = p.
Proof.
  rewrite chunks_by_index. apply join_substrings.
  pose proof (chunk_count_bounds (String.length p)). lia.
Qed.



End Wrapping.



(** X20. No character is lost or added by the wrapping: removing the one
    line terminator that ends each string written for a payload, and
    joining the results in order, gives the payload back, for every
    payload. *)
Theorem sequence_lines_round_trip (p : string) :
  PyStr.join (map strip_terminator (sequence_lines p)) = p.
Proof.
  rewrite sequence_lines_chunks, map_map.
  rewrite (map_ext _ (fun c => c)) by (intros c; apply strip_terminator_app_NL).
  rewrite map_id. apply join_chunks.
Qed.

(** ** The loop over the rows *)

Section Loop.

Variable extract_all_flag : bool.
Variable target_ids : gset string.

Lemma loop_body_cases st row :
  loop_body extract_all_flag target_ids st row =
  if row_raises extract_all_flag target_ids row then inl AttributeError
  else if row_emitted extract_all_flag target_ids row
       then inr (st.1 + 1, (st.2 ++ row_entry row)%list)
       else inr st.
Proof.
  destruct st as [extracted_count written].
  unfold loop_body, row_raises, row_emitted, row_entry.
  fold (row_seq_id row) (row_short_name row) (row_sequence row).
  destruct (is_match _ _ _); simpl; [|done].
  destruct (row_sequence row) as [field|]; [|done].
  by destruct (PyStr.truthy (PyStr.strip field)).
Qed.

(** A row cannot both raise and be emitted. *)
Lemma row_raises_not_emitted row :
  row_raises extract_all_flag target_ids row = true ->
  row_emitted extract_all_flag target_ids row = false.
Proof.
  unfold row_raises, row_emitted.
  destruct (is_match _ _ _), (row_sequence row); simpl; congruence.
Qed.

Lemma for_rows_cons row rows st :
  for_rows extract_all_flag target_ids (row :: rows) st =
  match loop_body extract_all_flag target_ids st row with
  | inl e => (Some e, st)
  | inr st' => for_rows extract_all_flag target_ids rows st'
  end.
Proof. reflexivity. Qed.

(** When no row raises, the loop runs to its end: it counts the emitted
    rows and appends their entries in row order. *)
Lemma for_rows_no_raise rows : forall st,
  Forall (fun row => row_raises extract_all_flag target_ids row = false) rows ->
  for_rows extract_all_flag target_ids rows st =
  (None, (st.1 + emitted_count extract_all_flag target_ids rows,
          (st.2 ++ entries extract_all_flag target_ids rows)%list)).
Proof.
  unfold emitted_count, entries.
  induction rows as [|row rows IH]; intros [count written] Hno.
  - simpl. by rewrite Nat.add_0_r, app_nil_r.
  - inversion Hno as [|? ? Hrow Hrest]; subst.
    rewrite for_rows_cons, loop_body_cases, Hrow. simpl List.filter.
    destruct (row_emitted _ _ row); rewrite IH by done; simpl.
    + f_equal. f_equal; [lia | by rewrite <- app_assoc].
    + done.
Qed.

(** The loop stops at the first row that raises; the rows before it have
    been handled, the rows after it are not looked at. *)
Lemma for_rows_raise before row after : forall st,
  Forall (fun row => row_raises extract_all_flag target_ids row = false) before ->
  row_raises extract_all_flag target_ids row = true ->
  for_rows extract_all_flag target_ids (before ++ row :: after) st =
  (Some AttributeError,
   (st.1 + emitted_count extract_all_flag target_ids before,
    (st.2 ++ entries extract_all_flag target_ids before)%list)).
Proof.
  unfold emitted_count, entries.
  induction before as [|r before IH]; intros [count written] Hno Hrow.
  - simpl app. rewrite for_rows_cons, loop_body_cases, Hrow.
    simpl. by rewrite Nat.add_0_r, app_nil_r.
  - inversion Hno as [|? ? Hr Hrest]; subst.
    rewrite <- app_comm_cons, for_rows_cons, loop_body_cases, Hr.
    simpl List.filter.
    destruct (row_emitted _ _ r); rewrite IH by done; simpl.
    + f_equal. f_equal; [lia | by rewrite <- app_assoc].
    + done.
Qed.

End Loop.

(** ** Rows under the standard header *)

Section StandardRows.

Variables (seq_id short_name field : string).

Let row := DictReader.row_dict standard_header [seq_id; short_name; field].

Lemma standard_row_seq_id : row_seq_id row = Some seq_id.
Proof. reflexivity. Qed.

Lemma standard_row_short_name : row_short_name row = Some short_name.
Proof. reflexivity. Qed.

Lemma standard_row_sequence : row_sequence row = Some field.
Proof. reflexivity. Qed.

Lemma standard_row_raises all ids : row_raises all ids row = false.
Proof.
  unfold row_raises. rewrite standard_row_sequence. apply andb_false_r.
Qed.

Lemma standard_row_emitted all ids :
  row_emitted all ids row =
  is_match all ids (Some seq_id) && PyStr.truthy (PyStr.strip field).
Proof.
  unfold row_emitted. by rewrite standard_row_sequence, standard_row_seq_id.
Qed.

Lemma standard_row_entry :
  row_entry row =
  header_line (seq_id +:+ "_" +:+ short_name)
  :: sequence_lines (PyStr.strip field).
Proof.
  unfold row_entry.
  by rewrite standard_row_sequence, standard_row_seq_id,
    standard_row_short_name.
Qed.

End StandardRows.

(** ** The whole extraction *)

Section Extraction.

Implicit Types (fieldnames : list string) (rest : list (list string)).
Implicit Types (target_ids : gset string) (extract_all_flag : bool).

(** With the required headers present, an output file that opens, and no
    row whose [None] sequence value makes [.strip()] raise, the run
    completes: it reports the number of emitted rows and has written
    their entries in row order. *)
Lemma extraction_completes fieldnames rest target_ids extract_all_flag :
  has_required_headers fieldnames = true ->
  Forall (fun row => row_raises extract_all_flag target_ids row = false)
         (DictReader.rows (fieldnames :: rest)) ->
  create_fasta_from_csv (Opened (fieldnames :: rest)) (Opened ())
                        target_ids extract_all_flag
  = Outcome
      (Success (emitted_count extract_all_flag target_ids
                              (DictReader.rows (fieldnames :: rest))))
      (Some (entries extract_all_flag target_ids
                     (DictReader.rows (fieldnames :: rest)))).
Proof.
  intros Hhdr Hno. unfold create_fasta_from_csv.
  cbn [DictReader.fieldnames head]. rewrite Hhdr. cbn [negb].
  by rewrite for_rows_no_raise.
Qed.

(** A matching row whose sequence value is [None] ends the run with the
    report of [except Exception]; what the earlier rows wrote stays in
    the file, and the later rows are not processed. *)
Lemma extraction_aborts fieldnames rest target_ids extract_all_flag
      before row after :
  has_required_headers fieldnames = true ->
  DictReader.rows (fieldnames :: rest) = (before ++ row :: after)%list ->
  Forall (fun row => row_raises extract_all_flag target_ids row = false)
         before ->
  row_raises extract_all_flag target_ids row = true ->
  create_fasta_from_csv (Opened (fieldnames :: rest)) (Opened ())
                        target_ids extract_all_flag
  = Outcome (Unexpected AttributeError)
            (Some (entries extract_all_flag target_ids before)).
Proof.
  intros Hhdr Hrows Hno Hrow. unfold create_fasta_from_csv.
  cbn [DictReader.fieldnames head]. rewrite Hhdr, Hrows. cbn [negb].
  by rewrite for_rows_raise.
Qed.

Lemma missing_header_fails_check fieldnames header :
  header ∈ required_headers -> header ∉ fieldnames ->
  has_required_headers fieldnames = false.
Proof.
  intros Hreq Hnot. unfold has_required_headers.
  apply not_true_is_false. intros Hall.
  rewrite forallb_forall in Hall.
  specialize (Hall header). rewrite <- list_elem_of_In in Hall.
  apply Hall in Hreq. by apply bool_decide_eq_true in Hreq.
Qed.

End Extraction.

(** C2. When the header row lacks one of the three required column
    names, the call reports the missing columns with the expected and the
    found headers; the report is the same whatever rows follow the header,
    and the output path is not opened: nothing is created, truncated or
    written. *)
Theorem missing_columns_stop_before_output
        (fieldnames : list string) (rest : list (list string))
        (header : string) (output_file : opened ())
        (target_ids : gset string) (extract_all_flag : bool) :
  header ∈ required_headers ->
  header ∉ fieldnames ->
  create_fasta_from_csv (Opened (fieldnames :: rest)) output_file
                        target_ids extract_all_flag
  = Outcome (MissingColumns required_headers fieldnames) None.
Proof.
  intros Hreq Hnot. unfold create_fasta_from_csv.
  cbn [DictReader.fieldnames head].
  by rewrite (missing_header_fails_check _ _ Hreq Hnot).
Qed.

Lemma missing_columns_stop_before_output_witness :
  ("PROTEIN_SEQUENCE" ∈ required_headers)
  /\ ("PROTEIN_SEQUENCE" ∉ ["SEQ_ID"; "SHORT_NAME"])
  /\ create_fasta_from_csv
       (Opened [["SEQ_ID"; "SHORT_NAME"]; ["X1"; "a"]]) (Opened ()) ∅ true
     = Outcome (MissingColumns required_headers ["SEQ_ID"; "SHORT_NAME"]) None.
Proof.
  assert (Hreq : "PROTEIN_SEQUENCE" ∈ required_headers)
    by by_decision.
  assert (Hnot : "PROTEIN_SEQUENCE" ∉ ["SEQ_ID"; "SHORT_NAME"])
    by by_decision.
  split; [exact Hreq|]. split; [exact Hnot|].
  exact (missing_columns_stop_before_output
           ["SEQ_ID"; "SHORT_NAME"] [["X1"; "a"]] "PROTEIN_SEQUENCE"
           (Opened ()) ∅ true Hreq Hnot).
Defined.

(** C4. [is_match] is true exactly when all sequences are requested, or
    identifiers are selected by set and the identifier of the row is a
    non-empty string that belongs to the set; a row that does not match
    leaves the loop state as it was: nothing written, nothing counted, no
    exception. *)
Theorem is_match_iff_all_or_member
        (extract_all_flag : bool) (target_ids : gset string)
        (seq_id : option string) :
  (is_match extract_all_flag target_ids seq_id = true <->
   extract_all_flag = true
   \/ (extract_all_flag = false
       /\ exists s, seq_id = Some s /\ s <> "" /\ s ∈ target_ids))
  /\ (forall st row,
        is_match extract_all_flag target_ids (row_seq_id row) = false ->
        loop_body extract_all_flag target_ids st row = inr st).
Proof.
  split.
  - unfold is_match. destruct extract_all_flag; simpl.
    + split; [by left|done].
    + split.
      * destruct seq_id as [s|]; [|done]. intros Hm.
        apply andb_true_iff in Hm as [Ht Hin]. right. split; [done|].
        exists s. split; [done|]. split.
        -- by destruct s.
        -- by apply bool_decide_eq_true in Hin.
      * intros [?|[_ (s & -> & Hne & Hin)]]; [done|].
        apply andb_true_iff. split.
        -- by destruct s.
        -- by apply bool_decide_eq_true_2.
  - intros st row Hm. rewrite loop_body_cases.
    unfold row_raises, row_emitted. by rewrite Hm.
Qed.

Lemma is_match_iff_all_or_member_witness :
  is_match false {["X1"]} (Some "X1") = true
  /\ is_match false {["X1"]} (Some "X2") = false
  /\ loop_body false {["X1"]} (0, [])
       (DictReader.row_dict standard_header ["X2"; "b"; "GG"]) = inr (0, []).
Proof.
  destruct (is_match_iff_all_or_member false {["X1"]} (Some "X1")) as [Hiff _].
  destruct (is_match_iff_all_or_member false {["X1"]} (Some "X2")) as [_ Hskip].
  split.
  - apply Hiff. right. split; [reflexivity|].
    exists "X1". split; [reflexivity|]. split; [discriminate|].
    by_decision.
  - split; [vm_compute; reflexivity|].
    apply Hskip. vm_compute; reflexivity.
Defined.

(** X19. When the required headers are present and no matching row has
    [None] as its sequence value, every emitted row is written in source
    row order, once per row: the file holds the entries of the rows that
    match and carry a non-empty trimmed payload, in the order of the rows,
    and the count is their number; a set of identifiers selects every row
    that bears one of them.  In particular, with the set [{"X1"}] and rows
    whose identifiers are X1, X2, X1, all with non-empty trimmed payloads,
    exactly the two X1 rows are written, the first before the third. *)
Theorem matching_rows_written_in_row_order
        (fieldnames : list string) (rest : list (list string))
        (target_ids : gset string) (extract_all_flag : bool) :
  has_required_headers fieldnames = true ->
  Forall (fun row => row_raises extract_all_flag target_ids row = false)
         (DictReader.rows (fieldnames :: rest)) ->
  create_fasta_from_csv (Opened (fieldnames :: rest)) (Opened ())
                        target_ids extract_all_flag
  = Outcome
      (Success (length (List.filter (row_emitted extract_all_flag target_ids)
                                    (DictReader.rows (fieldnames :: rest)))))
      (Some (flat_map row_entry
               (List.filter (row_emitted extract_all_flag target_ids)
                            (DictReader.rows (fieldnames :: rest)))))
  /\ (forall n1 n2 n3 p1 p2 p3 : string,
        PyStr.strip p1 <> "" -> PyStr.strip p2 <> "" -> PyStr.strip p3 <> "" ->
        create_fasta_from_csv
          (Opened [standard_header;
                   ["X1"; n1; p1]; ["X2"; n2; p2]; ["X1"; n3; p3]])
          (Opened ()) {["X1"]} false
        = Outcome (Success 2)
            (Some ((header_line ("X1_" +:+ n1) :: sequence_lines (PyStr.strip p1))
                   ++ header_line ("X1_" +:+ n3)
                   :: sequence_lines (PyStr.strip p3))%list)).
Proof.
  intros Hhdr Hno. split; [by apply extraction_completes|].
  intros n1 n2 n3 p1 p2 p3 H1 H2 H3.
  rewrite extraction_completes.
  - unfold emitted_count, entries.
    cbn [DictReader.rows List.filter map length Nat.eqb negb].
    rewrite !standard_row_emitted.
    replace (is_match false {["X1"]} (Some "X1")) with true
      by (vm_compute; reflexivity).
    replace (is_match false {["X1"]} (Some "X2")) with false
      by (vm_compute; reflexivity).
    destruct (PyStr.strip p1) eqn:E1; [done|].
    destruct (PyStr.strip p3) eqn:E3; [done|].
    cbn [andb PyStr.truthy length flat_map].
    rewrite !standard_row_entry, E1, E3, app_nil_r. reflexivity.
  - reflexivity.
  - cbn [DictReader.rows List.filter map length Nat.eqb negb].
    repeat constructor; apply standard_row_raises.
Qed.

Lemma matching_rows_written_in_row_order_witness :
  has_required_headers standard_header = true
  /\ Forall (fun row => row_raises false {["X1"]} row = false)
            (DictReader.rows
               [standard_header;
                ["X1"; "first"; "ACGT"]; ["X2"; "second"; "GG"];
                ["X1"; "third"; "TT"]])
  /\ create_fasta_from_csv
       (Opened [standard_header;
                ["X1"; "first"; "ACGT"]; ["X2"; "second"; "GG"];
                ["X1"; "third"; "TT"]])
       (Opened ()) {["X1"]} false
     = Outcome (Success 2)
         (Some [">X1_first" +:+ NL; "ACGT" +:+ NL;
                ">X1_third" +:+ NL; "TT" +:+ NL]).
Proof.
  assert (Hhdr : has_required_headers standard_header = true)
    by (vm_compute; reflexivity).
  assert (Hno : Forall (fun row => row_raises false {["X1"]} row = false)
                  (DictReader.rows
                     [standard_header;
                      ["X1"; "first"; "ACGT"]; ["X2"; "second"; "GG"];
                      ["X1"; "third"; "TT"]]))
    by (repeat constructor; apply standard_row_raises).
  split; [exact Hhdr|]. split; [exact Hno|].
  destruct (matching_rows_written_in_row_order
              standard_header
              [["X1"; "first"; "ACGT"]; ["X2"; "second"; "GG"];
               ["X1"; "third"; "TT"]]
              {["X1"]} false Hhdr Hno) as [Hgen _].
  rewrite Hgen. vm_compute. reflexivity.
Defined.

(** C9, as the code has it. When opening the source raises
    [FileNotFoundError] the call reports that the source was not found;
    when opening it fails in any other way the call reports an unexpected
    error carrying that failure.  In both cases the output path is never
    opened, so nothing is created, truncated or written. *)
Theorem source_open_failure_reported
        (e : exn) (output_file : opened ())
        (target_ids : gset string) (extract_all_flag : bool) :
  create_fasta_from_csv (OpenFails e) output_file target_ids extract_all_flag
  = Outcome (match e with
             | FileNotFoundError => SourceNotFound
             | _ => Unexpected e
             end) None.
Proof. reflexivity. Qed.

(** C9 as stated fails: a source that exists but cannot be opened (the
    operating system denies the permission) is reported through
    [except Exception], not as a source that was not found. *)
Lemma unopenable_source_not_reported_not_found :
  create_fasta_from_csv (OpenFails (OSError "[Errno 13] Permission denied"))
                        (Opened ()) ∅ true
  = Outcome (Unexpected (OSError "[Errno 13] Permission denied")) None
  /\ res (create_fasta_from_csv
            (OpenFails (OSError "[Errno 13] Permission denied"))
            (Opened ()) ∅ true) <> SourceNotFound.
Proof. split; [reflexivity | discriminate]. Qed.

(** C10. When all sequences are requested, a row whose identifier is the
    empty string and whose trimmed payload is non-empty is emitted and
    counted, and its header line starts with [>_]: the empty identifier,
    the underscore, then the display name.  When identifiers are selected
    by set, the same row is skipped whatever the set. *)
Theorem empty_identifier_emitted_under_all
        (target_ids : gset string) (st : loop_state)
        (row : gmap string (option string)) (field : string) :
  row !! ID_COLUMN = Some (Some "") ->
  row !! SEQUENCE_COLUMN = Some (Some field) ->
  PyStr.strip field <> "" ->
  loop_body true target_ids st row
  = inr (st.1 + 1,
         (st.2 ++ (">_" +:+ PyStr.format (row_short_name row) +:+ NL)
               :: sequence_lines (PyStr.strip field))%list)
  /\ loop_body false target_ids st row = inr st.
Proof.
  intros Hid Hseq Hne.
  assert (Hi : row_seq_id row = Some "")
    by (unfold row_seq_id, DictReader.get; by rewrite Hid).
  assert (Hs : row_sequence row = Some field)
    by (unfold row_sequence, DictReader.get; by rewrite Hseq).
  assert (Ht : PyStr.truthy (PyStr.strip field) = true)
    by (by destruct (PyStr.strip field)).
  rewrite !loop_body_cases.
  unfold row_raises, row_emitted, row_entry. rewrite Hi, Hs, Ht.
  split; reflexivity.
Qed.

Lemma empty_identifier_emitted_under_all_witness :
  DictReader.row_dict standard_header [""; "name"; " ACGT "] !! ID_COLUMN
  = Some (Some "")
  /\ DictReader.row_dict standard_header [""; "name"; " ACGT "]
       !! SEQUENCE_COLUMN = Some (Some " ACGT ")
  /\ PyStr.strip " ACGT " <> ""
  /\ loop_body true ∅ (0, [])
       (DictReader.row_dict standard_header [""; "name"; " ACGT "])
     = inr (1, [">_name" +:+ NL; "ACGT" +:+ NL]).
Proof.
  assert (Hid : DictReader.row_dict standard_header [""; "name"; " ACGT "]
                  !! ID_COLUMN = Some (Some "")) by reflexivity.
  assert (Hseq : DictReader.row_dict standard_header [""; "name"; " ACGT "]
                   !! SEQUENCE_COLUMN = Some (Some " ACGT ")) by reflexivity.
  assert (Hne : PyStr.strip " ACGT " <> "") by (vm_compute; discriminate).
  split; [exact Hid|]. split; [exact Hseq|]. split; [exact Hne|].
  destruct (empty_identifier_emitted_under_all
              ∅ (0, []) _ " ACGT " Hid Hseq Hne) as [Hall _].
  rewrite Hall. vm_compute. reflexivity.
Defined.

(** ** Short rows: the values DictReader fills in *)

Section ShortRows.

Implicit Types (d : gmap string (option string)) (l : list string).

Lemma lookup_fill_other l : forall d key,
  key ∉ l ->
  foldl (fun d key => <[key := None]> d) d l !! key = d !! key.
Proof.
  induction l as [|a l IH]; intros d key Hnot; simpl; [done|].
  apply not_elem_of_cons in Hnot as [Hne Hnot].
  rewrite IH by done. by rewrite lookup_insert_ne.
Qed.

Lemma lookup_fill_none l : forall d key,
  key ∈ l ->
  foldl (fun d key => <[key := None]> d) d l !! key = Some None.
Proof.
  induction l as [|a l IH]; intros d key Hin; simpl.
  - by apply elem_of_nil in Hin.
  - destruct (decide (key ∈ l)) as [Hl|Hl]; [by apply IH|].
    apply elem_of_cons in Hin as [->|Hin]; [|done].
    rewrite lookup_fill_other by done. apply lookup_insert_eq.
Qed.

(** A field name beyond the end of a short row is a key of the row, with
    the value [None]. *)
Lemma short_row_value_none (fieldnames row : list string) (key : string) :
  key ∈ drop (length row) fieldnames ->
  DictReader.row_dict fieldnames row !! key = Some None.
Proof.
  intros Hin. unfold DictReader.row_dict.
  assert (Hlt : length row < length fieldnames).
  { destruct (decide (length row < length fieldnames)) as [|Hge]; [done|].
    rewrite drop_ge in Hin by lia. by apply elem_of_nil in Hin. }
  destruct (Nat.ltb_spec (length fieldnames) (length row)); [lia|].
  destruct (Nat.ltb_spec (length row) (length fieldnames)); [|lia].
  by apply lookup_fill_none.
Qed.

(** Hence the defaults of [row.get] are not used for such a key: the
    display name of the row is [None], not ["N/A"], and its sequence
    value is [None], not the empty string. *)
Lemma short_row_short_name (fieldnames row : list string) :
  NAME_COLUMN ∈ drop (length row) fieldnames ->
  row_short_name (DictReader.row_dict fieldnames row) = None.
Proof.
  intros Hin. unfold row_short_name, DictReader.get.
  by rewrite short_row_value_none.
Qed.

Lemma short_row_sequence (fieldnames row : list string) :
  SEQUENCE_COLUMN ∈ drop (length row) fieldnames ->
  row_sequence (DictReader.row_dict fieldnames row) = None.
Proof.
  intros Hin. unfold row_sequence, DictReader.get.
  by rewrite short_row_value_none.
Qed.

(** A matching row that stops before its sequence field raises. *)
Lemma short_row_raises (fieldnames row : list string)
      (target_ids : gset string) (extract_all_flag : bool) :
  SEQUENCE_COLUMN ∈ drop (length row) fieldnames ->
  is_match extract_all_flag target_ids
           (row_seq_id (DictReader.row_dict fieldnames row)) = true ->
  row_raises extract_all_flag target_ids
             (DictReader.row_dict fieldnames row) = true.
Proof.
  intros Hin Hm. unfold row_raises.
  by rewrite Hm, short_row_sequence.
Qed.

End ShortRows.

(** C1. The claim does not hold on the code for a source with a short
    row.  Three rows under the required headers, all sequences requested:
    the second row stops after its display name.  The claim gives a
    successful run that counts the first and the third row; the code stops
    at the second row with the report of [except Exception], and the file
    holds the first entry only. *)
Theorem short_row_breaks_count :
  create_fasta_from_csv
    (Opened [["SEQ_ID"; "SHORT_NAME"; "PROTEIN_SEQUENCE"];
             ["X1"; "a"; "ACGT"]; ["X2"; "b"]; ["X3"; "c"; "GG"]])
    (Opened ()) ∅ true
  = Outcome (Unexpected AttributeError)
            (Some [">X1_a" +:+ NL; "ACGT" +:+ NL]).
Proof. vm_compute. reflexivity. Qed.

(** C7. The claim does not hold on the code for a row whose display-name
    field is absent.  The display-name column comes last and the row stops
    before it: the claim gives the header line [>X1_N/A]; the code writes
    [>X1_None]. *)
Theorem absent_name_written_as_None :
  create_fasta_from_csv
    (Opened [["SEQ_ID"; "PROTEIN_SEQUENCE"; "SHORT_NAME"]; ["X1"; "ACGT"]])
    (Opened ()) ∅ true
  = Outcome (Success 1) (Some [">X1_None" +:+ NL; "ACGT" +:+ NL]).
Proof. vm_compute. reflexivity. Qed.

(** C8. The claim does not hold on the code for a matching row whose
    sequence field is absent.  The claim gives a run that skips the row and
    goes on to count the next one; the code raises on the row, reports
    through [except Exception], and never reaches the next row. *)
Theorem absent_sequence_raises :
  create_fasta_from_csv
    (Opened [["SEQ_ID"; "SHORT_NAME"; "PROTEIN_SEQUENCE"];
             ["X1"; "a"]; ["X2"; "b"; "GG"]])
    (Opened ()) ∅ true
  = Outcome (Unexpected AttributeError) (Some []).
Proof. vm_compute. reflexivity. Qed.

(** ** Reading the file back *)

Section ReadBack.


Lemma join_cons (a : string) (l : list string) :
  PyStr.join (a :: l) = a +:+ PyStr.join l.
Proof. reflexivity. Qed.







(** A line feed inside a payload (a quoted CSV field may hold one) is
    written as it is; cut at the line feeds, the text then has one more
    line than the code wrote, and the line feed is not recovered. *)
Example embedded_line_feed :
  sequence_lines ("AC" +:+ NL +:+ "GT") = ["AC" +:+ NL +:+ "GT" +:+ NL]
  /\ lines_from "" (PyStr.join (sequence_lines ("AC" +:+ NL +:+ "GT")))
     = ["AC"; "GT"].
Proof. split; reflexivity. Qed.

End ReadBack.

(** ** Further facts about a run *)

(** A source without any row has no field names: the header check raises
    before the output path is opened. *)
Lemma empty_source_unexpected
      (output_file : opened ()) (target_ids : gset string)
      (extract_all_flag : bool) :
  create_fasta_from_csv (Opened []) output_file target_ids extract_all_flag
  = Outcome (Unexpected TypeError) None.
Proof. reflexivity. Qed.

(** The output path cannot be opened: nothing is written, and the report
    follows the [except] clauses. *)
Lemma output_open_failure
      (fieldnames : list string) (rest : list (list string)) (e : exn)
      (target_ids : gset string) (extract_all_flag : bool) :
  has_required_headers fieldnames = true ->
  create_fasta_from_csv (Opened (fieldnames :: rest)) (OpenFails e)
                        target_ids extract_all_flag
  = Outcome (except_clauses e) None.
Proof.
  intros Hhdr. unfold create_fasta_from_csv.
  cbn [DictReader.fieldnames head]. by rewrite Hhdr.
Qed.

(** The order of the columns and additional columns do not matter to the
    header check. *)
Example headers_any_order :
  has_required_headers
    ["NOTES"; "PROTEIN_SEQUENCE"; "SEQ_ID"; "LENGTH"; "SHORT_NAME"] = true.
Proof. vm_compute. reflexivity. Qed.

(** Three rows, the second with an empty sequence field, all requested:
    two entries, two header lines. *)
Example empty_sequence_row_skipped :
  create_fasta_from_csv
    (Opened [standard_header;
             ["X1"; "a"; "ACGT"]; ["X2"; "b"; "  "]; ["X3"; "c"; "GG"]])
    (Opened ()) ∅ true
  = Outcome (Success 2)
      (Some [">X1_a" +:+ NL; "ACGT" +:+ NL; ">X3_c" +:+ NL; "GG" +:+ NL]).
Proof. vm_compute. reflexivity. Qed.

Example strip_examples :
  PyStr.strip "  AC GT  " = "AC GT" /\ PyStr.strip "   " = ""
  /\ PyStr.strip (NL +:+ "ACGT" +:+ NL) = "ACGT".
Proof. repeat split; reflexivity. Qed.

Example main_example :
  main (Filesystem (fun _ => true)
          (fun _ => Opened [standard_header; ["X1"; "a"; "ACGT"]; ["X2"; "b"; "GG"]])
          (fun _ => Opened ()))
       " in.csv " "out.fasta" " X2 , ,X3 "
  = Ran (Outcome (Success 1) (Some [">X2_b" +:+ NL; "GG" +:+ NL])).
Proof. vm_compute. reflexivity. Qed.

(** * Further properties of the extraction *)

Section CoreExtras.

Implicit Types (fieldnames : list string) (rest : list (list string)).
Implicit Types (rows : list (gmap string (option string))).

Lemma for_rows_all_any_ids rows : forall st (ids ids' : gset string),
  for_rows true ids rows st = for_rows true ids' rows st.
Proof.
  induction rows as [|row rows IH]; intros st ids ids'; [reflexivity|].
  rewrite !for_rows_cons.
  replace (loop_body true ids' st row) with (loop_body true ids st row)
    by (destruct st; reflexivity).
  destruct (loop_body true ids st row); [reflexivity|apply IH].
Qed.

Lemma rows_without_blank fieldnames (before after : list (list string)) :
  DictReader.rows (fieldnames :: before ++ [] :: after)
  = DictReader.rows (fieldnames :: before ++ after).
Proof.
  unfold DictReader.rows. f_equal.
  rewrite !List.filter_app. reflexivity.
Qed.

Lemma header_line_ends name : ends_with_NL (header_line name).
Proof. exists (">" +:+ name). unfold header_line. reflexivity. Qed.

Lemma sequence_lines_end p : Forall ends_with_NL (sequence_lines p).
Proof.
  rewrite sequence_lines_chunks. apply Forall_forall. intros w Hin.
  apply list_elem_of_In, in_map_iff in Hin as (c & <- & _). by exists c.
Qed.

Lemma row_entry_ends row : Forall ends_with_NL (row_entry row).
Proof.
  unfold row_entry. destruct (row_sequence row); [|constructor].
  constructor; [apply header_line_ends | apply sequence_lines_end].
Qed.

Lemma for_rows_writes_end all ids rows : forall st,
  Forall ends_with_NL st.2 ->
  Forall ends_with_NL (for_rows all ids rows st).2.2.
Proof.
  induction rows as [|row rows IH]; intros st Hst; [done|].
  rewrite for_rows_cons, loop_body_cases.
  destruct (row_raises all ids row); [done|].
  destruct (row_emitted all ids row); apply IH; [|done].
  simpl. apply Forall_app. split; [done | apply row_entry_ends].
Qed.

Lemma no_match_no_raise all ids rows :
  Forall (fun row => is_match all ids (row_seq_id row) = false) rows ->
  Forall (fun row => row_raises all ids row = false) rows
  /\ List.filter (row_emitted all ids) rows = [].
Proof.
  induction 1 as [|row rows Hrow _ [IH1 IH2]]; [by split|].
  split.
  - constructor; [|done]. unfold row_raises. by rewrite Hrow.
  - simpl. unfold row_emitted at 1. by rewrite Hrow.
Qed.

Lemma filter_emitted_sublist ids ids' rows :
  sublist (List.filter (row_emitted false ids) rows)
          (List.filter (row_emitted true ids') rows).
Proof.
  induction rows as [|row rows IH]; [constructor|]. simpl.
  destruct (row_emitted false ids row) eqn:E.
  - assert (row_emitted true ids' row = true) as ->.
    { unfold row_emitted in *. apply andb_true_iff in E as [_ E].
      by rewrite E. }
    by constructor.
  - destruct (row_emitted true ids' row); [by constructor|done].
Qed.

Lemma flat_map_sublist {A B} (f : A -> list B) (l1 l2 : list A) :
  sublist l1 l2 -> sublist (flat_map f l1) (flat_map f l2).
Proof.
  induction 1 as [|x l1 l2 _ IH|x l1 l2 _ IH]; simpl.
  - constructor.
  - by apply sublist_app.
  - by apply sublist_inserts_l.
Qed.

End CoreExtras.

(** X1. When all sequences are requested, [target_ids] is not used: the
    outcome is the same for every set of identifiers. *)
Theorem extract_all_ignores_target_ids
        (csv_file : opened (list (list string))) (output_file : opened ())
        (target_ids target_ids' : gset string) :
  create_fasta_from_csv csv_file output_file target_ids true
  = create_fasta_from_csv csv_file output_file target_ids' true.
Proof.
  unfold create_fasta_from_csv.
  destruct csv_file as [lines|e]; [|reflexivity].
  destruct (DictReader.fieldnames lines); [|reflexivity].
  destruct (negb _); [reflexivity|].
  destruct output_file; [|reflexivity].
  by rewrite (for_rows_all_any_ids _ _ target_ids target_ids').
Qed.

(** X2. A blank row among the data rows changes nothing: the outcome is
    the one of the source without that row. *)
Theorem blank_row_ignored
        (fieldnames : list string) (before after : list (list string))
        (output_file : opened ()) (target_ids : gset string)
        (extract_all_flag : bool) :
  create_fasta_from_csv (Opened (fieldnames :: before ++ [] :: after))
                        output_file target_ids extract_all_flag
  = create_fasta_from_csv (Opened (fieldnames :: before ++ after))
                          output_file target_ids extract_all_flag.
Proof.
  unfold create_fasta_from_csv. cbn [DictReader.fieldnames head].
  by rewrite rows_without_blank.
Qed.

(** X3. Whatever the outcome, a run that ends normally or is cut short by an
    exception, every string written to the output file ends with the line
    terminator. *)
Theorem every_write_ends_with_NL
        (csv_file : opened (list (list string))) (output_file : opened ())
        (target_ids : gset string) (extract_all_flag : bool)
        (written : list string) :
  sink (create_fasta_from_csv csv_file output_file target_ids extract_all_flag)
  = Some written ->
  Forall ends_with_NL written.
Proof.
  unfold create_fasta_from_csv.
  destruct csv_file as [lines|e]; [|done].
  destruct (DictReader.fieldnames lines); [|done].
  destruct (negb _); [done|].
  destruct output_file; [|done].
  pose proof (for_rows_writes_end extract_all_flag target_ids
                (DictReader.rows lines) (0, []) (Forall_nil_2 _)) as Hends.
  destruct (for_rows _ _ _ _) as [[e|] [count ws]]; simpl in *;
    intros [= <-]; exact Hends.
Qed.

Lemma every_write_ends_with_NL_witness :
  sink (create_fasta_from_csv
          (Opened [standard_header; ["X1"; "a"; "ACGT"]; ["X2"; "b"]])
          (Opened ()) ∅ true)
  = Some [">X1_a" +:+ NL; "ACGT" +:+ NL]
  /\ Forall ends_with_NL [">X1_a" +:+ NL; "ACGT" +:+ NL].
Proof.
  assert (Hsink : sink (create_fasta_from_csv
                          (Opened [standard_header; ["X1"; "a"; "ACGT"];
                                   ["X2"; "b"]])
                          (Opened ()) ∅ true)
                  = Some [">X1_a" +:+ NL; "ACGT" +:+ NL])
    by (vm_compute; reflexivity).
  split; [exact Hsink|].
  exact (every_write_ends_with_NL _ _ _ _ _ Hsink).
Defined.

(** X4. When no row matches (in particular when the source has a header
    row only), the run succeeds with the count 0, and the output file has
    been opened for writing: it exists and is empty. *)
Theorem no_matching_row_empties_output
        (fieldnames : list string) (rest : list (list string))
        (target_ids : gset string) (extract_all_flag : bool) :
  has_required_headers fieldnames = true ->
  Forall (fun row => is_match extract_all_flag target_ids (row_seq_id row) = false)
         (DictReader.rows (fieldnames :: rest)) ->
  create_fasta_from_csv (Opened (fieldnames :: rest)) (Opened ())
                        target_ids extract_all_flag
  = Outcome (Success 0) (Some []).
Proof.
  intros Hhdr Hno. apply no_match_no_raise in Hno as [Hraise Hnone].
  rewrite extraction_completes by done.
  unfold emitted_count, entries. by rewrite Hnone.
Qed.

Lemma no_matching_row_empties_output_witness :
  has_required_headers standard_header = true
  /\ Forall (fun row => is_match false {["X9"]} (row_seq_id row) = false)
            (DictReader.rows [standard_header; ["X1"; "a"; "ACGT"]])
  /\ create_fasta_from_csv (Opened [standard_header; ["X1"; "a"; "ACGT"]])
                           (Opened ()) {["X9"]} false
     = Outcome (Success 0) (Some []).
Proof.
  assert (Hhdr : has_required_headers standard_header = true)
    by (vm_compute; reflexivity).
  assert (Hno : Forall (fun row => is_match false {["X9"]} (row_seq_id row) = false)
                  (DictReader.rows [standard_header; ["X1"; "a"; "ACGT"]]))
    by (repeat constructor; vm_compute; reflexivity).
  split; [exact Hhdr|]. split; [exact Hno|].
  exact (no_matching_row_empties_output _ _ _ _ Hhdr Hno).
Defined.

(** X5. When the output path cannot be opened, nothing is written and the
    rows are not read.  The report follows the two [except] clauses: a
    [FileNotFoundError] raised for the output path (a missing directory)
    is reported with the message of the missing input file, although the
    source was opened and its header accepted. *)
Theorem output_open_failure_reported
        (fieldnames : list string) (rest : list (list string)) (e : exn)
        (target_ids : gset string) (extract_all_flag : bool) :
  has_required_headers fieldnames = true ->
  create_fasta_from_csv (Opened (fieldnames :: rest)) (OpenFails e)
                        target_ids extract_all_flag
  = Outcome (match e with
             | FileNotFoundError => SourceNotFound
             | _ => Unexpected e
             end) None.
Proof. intros Hhdr. by rewrite output_open_failure. Qed.

Lemma output_open_failure_reported_witness :
  has_required_headers standard_header = true
  /\ create_fasta_from_csv
       (Opened [standard_header; ["X1"; "a"; "ACGT"]])
       (OpenFails FileNotFoundError) ∅ true
     = Outcome SourceNotFound None.
Proof.
  assert (Hhdr : has_required_headers standard_header = true)
    by (vm_compute; reflexivity).
  split; [exact Hhdr|].
  exact (output_open_failure_reported
           standard_header [["X1"; "a"; "ACGT"]] FileNotFoundError ∅ true Hhdr).
Defined.

(** X6. A source without a header row is not reported as missing columns.
    With no row at all the header check itself raises and the report is
    the one of [except Exception]; with a blank first row the found headers
    are the empty list.  The output path is opened in neither case. *)
Theorem source_without_header
        (rest : list (list string)) (output_file : opened ())
        (target_ids : gset string) (extract_all_flag : bool) :
  create_fasta_from_csv (Opened []) output_file target_ids extract_all_flag
  = Outcome (Unexpected TypeError) None
  /\ create_fasta_from_csv (Opened ([] :: rest)) output_file
                           target_ids extract_all_flag
     = Outcome (MissingColumns required_headers []) None.
Proof. split; reflexivity. Qed.

(** X7. No rollback: when a matching row has the value [None] for its
    sequence, the run ends with the report of [except Exception]; the
    entries of the rows before it stay in the output file, and no row
    after it is processed. *)
Theorem partial_output_kept
        (fieldnames : list string) (rest : list (list string))
        (target_ids : gset string) (extract_all_flag : bool)
        (before after : list (gmap string (option string)))
        (row : gmap string (option string)) :
  has_required_headers fieldnames = true ->
  DictReader.rows (fieldnames :: rest) = (before ++ row :: after)%list ->
  Forall (fun row => row_raises extract_all_flag target_ids row = false)
         before ->
  is_match extract_all_flag target_ids (row_seq_id row) = true ->
  row_sequence row = None ->
  create_fasta_from_csv (Opened (fieldnames :: rest)) (Opened ())
                        target_ids extract_all_flag
  = Outcome (Unexpected AttributeError)
            (Some (flat_map row_entry
                     (List.filter (row_emitted extract_all_flag target_ids)
                                  before))).
Proof.
  intros Hhdr Hrows Hno Hm Hseq.
  apply (extraction_aborts _ _ _ _ _ _ _ Hhdr Hrows Hno).
  unfold row_raises. by rewrite Hm, Hseq.
Qed.

Lemma partial_output_kept_witness :
  has_required_headers standard_header = true
  /\ DictReader.rows [standard_header; ["X1"; "a"; "ACGT"]; ["X2"; "b"];
                      ["X3"; "c"; "GG"]]
     = ([DictReader.row_dict standard_header ["X1"; "a"; "ACGT"]]
        ++ DictReader.row_dict standard_header ["X2"; "b"]
        :: [DictReader.row_dict standard_header ["X3"; "c"; "GG"]])%list
  /\ Forall (fun row => row_raises true ∅ row = false)
            [DictReader.row_dict standard_header ["X1"; "a"; "ACGT"]]
  /\ is_match true ∅
       (row_seq_id (DictReader.row_dict standard_header ["X2"; "b"])) = true
  /\ row_sequence (DictReader.row_dict standard_header ["X2"; "b"]) = None
  /\ create_fasta_from_csv
       (Opened [standard_header; ["X1"; "a"; "ACGT"]; ["X2"; "b"];
                ["X3"; "c"; "GG"]])
       (Opened ()) ∅ true
     = Outcome (Unexpected AttributeError)
               (Some [">X1_a" +:+ NL; "ACGT" +:+ NL]).
Proof.
  assert (Hhdr : has_required_headers standard_header = true)
    by (vm_compute; reflexivity).
  assert (Hrows : DictReader.rows
                    [standard_header; ["X1"; "a"; "ACGT"]; ["X2"; "b"];
                     ["X3"; "c"; "GG"]]
                  = ([DictReader.row_dict standard_header ["X1"; "a"; "ACGT"]]
                     ++ DictReader.row_dict standard_header ["X2"; "b"]
                     :: [DictReader.row_dict standard_header ["X3"; "c"; "GG"]])%list)
    by reflexivity.
  assert (Hno : Forall (fun row => row_raises true ∅ row = false)
                  [DictReader.row_dict standard_header ["X1"; "a"; "ACGT"]])
    by (repeat constructor; apply standard_row_raises).
  assert (Hm : is_match true ∅
                 (row_seq_id (DictReader.row_dict standard_header ["X2"; "b"]))
               = true) by reflexivity.
  assert (Hseq : row_sequence (DictReader.row_dict standard_header ["X2"; "b"])
                 = None) by reflexivity.
  split; [exact Hhdr|]. split; [exact Hrows|]. split; [exact Hno|].
  split; [exact Hm|]. split; [exact Hseq|].
  rewrite (partial_output_kept _ _ _ _ _ _ _ Hhdr Hrows Hno Hm Hseq).
  vm_compute. reflexivity.
Defined.

(** X8. Selecting by identifiers never adds anything: when every row has a
    sequence value, what a run with a set of identifiers writes is a
    subsequence, in the same order, of what the run requesting all
    sequences writes, and its count is not larger. *)
Theorem selection_is_subsequence_of_all
        (fieldnames : list string) (rest : list (list string))
        (target_ids target_ids' : gset string) :
  has_required_headers fieldnames = true ->
  Forall (fun row => row_sequence row <> None)
         (DictReader.rows (fieldnames :: rest)) ->
  exists n n' w w',
    create_fasta_from_csv (Opened (fieldnames :: rest)) (Opened ())
                          target_ids false = Outcome (Success n) (Some w)
    /\ create_fasta_from_csv (Opened (fieldnames :: rest)) (Opened ())
                             target_ids' true = Outcome (Success n') (Some w')
    /\ n <= n' /\ sublist w w'.
Proof.
  intros Hhdr Hseq.
  assert (Hno : forall all ids,
             Forall (fun row => row_raises all ids row = false)
                    (DictReader.rows (fieldnames :: rest))).
  { intros all ids. eapply Forall_impl; [exact Hseq|].
    intros row Hrow. simpl in Hrow. unfold row_raises.
    destruct (row_sequence row); [apply andb_false_r | congruence]. }
  eexists _, _, _, _.
  split; [by apply extraction_completes|].
  split; [by apply extraction_completes|].
  unfold emitted_count, entries.
  pose proof (filter_emitted_sublist target_ids target_ids'
                (DictReader.rows (fieldnames :: rest))) as Hsub.
  split; [by apply sublist_length | by apply flat_map_sublist].
Qed.

Lemma selection_is_subsequence_of_all_witness :
  has_required_headers standard_header = true
  /\ Forall (fun row => row_sequence row <> None)
            (DictReader.rows [standard_header; ["X1"; "a"; "ACGT"];
                              ["X2"; "b"; "GG"]])
  /\ exists n n' w w',
       create_fasta_from_csv
         (Opened [standard_header; ["X1"; "a"; "ACGT"]; ["X2"; "b"; "GG"]])
         (Opened ()) {["X2"]} false = Outcome (Success n) (Some w)
       /\ create_fasta_from_csv
            (Opened [standard_header; ["X1"; "a"; "ACGT"]; ["X2"; "b"; "GG"]])
            (Opened ()) ∅ true = Outcome (Success n') (Some w')
       /\ n <= n' /\ sublist w w'.
Proof.
  assert (Hhdr : has_required_headers standard_header = true)
    by (vm_compute; reflexivity).
  assert (Hseq : Forall (fun row => row_sequence row <> None)
                   (DictReader.rows [standard_header; ["X1"; "a"; "ACGT"];
                                     ["X2"; "b"; "GG"]]))
    by (repeat constructor; discriminate).
  split; [exact Hhdr|]. split; [exact Hseq|].
  exact (selection_is_subsequence_of_all _ _ {["X2"]} ∅ Hhdr Hseq).
Defined.

(** ** Rows as DictReader builds them *)

Section RowDicts.

Implicit Types (d : gmap string (option string)).
Implicit Types (l : list (string * string)).

Lemma zip_app_extra (h r extra : list string) :
  length h <= length r -> zip h (r ++ extra)%list = zip h r.
Proof.
  revert r; induction h as [|x h IH]; intros [|y r] Hlen; simpl in *;
    try done; try lia.
  f_equal. apply IH. lia.
Qed.

Lemma fst_zip_take (h r : list string) : (zip h r).*1 = take (length r) h.
Proof.
  revert r; induction h as [|x h IH]; intros [|y r]; simpl; try done.
  f_equal. apply IH.
Qed.

Lemma lookup_zip_other l : forall d key,
  key ∉ l.*1 ->
  foldl (fun d kv => <[kv.1 := Some kv.2]> d) d l !! key = d !! key.
Proof.
  induction l as [|a l IH]; intros d key Hnot; simpl; [done|].
  simpl in Hnot. apply not_elem_of_cons in Hnot as [Hne Hnot].
  rewrite IH by done. by rewrite lookup_insert_ne.
Qed.

Lemma lookup_zip_value l : forall d key v,
  NoDup l.*1 -> (key, v) ∈ l ->
  foldl (fun d kv => <[kv.1 := Some kv.2]> d) d l !! key = Some (Some v).
Proof.
  induction l as [|a l IH]; intros d key v Hnd Hin; simpl.
  - by apply elem_of_nil in Hin.
  - simpl in Hnd. apply NoDup_cons in Hnd as [Hfresh Hnd].
    apply elem_of_cons in Hin as [<-|Hin]; [|by apply IH].
    rewrite lookup_zip_other by done. apply lookup_insert_eq.
Qed.

Lemma lookup_zip_present l : forall d key,
  key ∈ l.*1 ∨ is_Some (d !! key) ->
  is_Some (foldl (fun d kv => <[kv.1 := Some kv.2]> d) d l !! key).
Proof.
  induction l as [|a l IH]; intros d key Hin; simpl.
  - destruct Hin as [Hin|Hd]; [by apply elem_of_nil in Hin | done].
  - apply IH. destruct Hin as [Hin|Hd].
    + simpl in Hin. apply elem_of_cons in Hin as [->|Hin]; [right|by left].
      rewrite lookup_insert_eq. by eexists.
    + right. apply lookup_insert_is_Some.
      destruct (decide (a.1 = key)); [by left | by right].
Qed.

Lemma lookup_fill_present (ks : list string) : forall d key,
  is_Some (d !! key) ->
  is_Some (foldl (fun d key => <[key := None]> d) d ks !! key).
Proof.
  induction ks as [|a ks IH]; intros d key Hd; simpl; [done|].
  apply IH, lookup_insert_is_Some.
  destruct (decide (a = key)); [by left | by right].
Qed.

Lemma row_dict_extra_fields (h r extra : list string) :
  length h <= length r ->
  DictReader.row_dict h (r ++ extra)%list = DictReader.row_dict h r.
Proof.
  intros Hlen. unfold DictReader.row_dict, DictReader.dict_of_zip.
  rewrite zip_app_extra, length_app by done.
  destruct (Nat.ltb_spec (length h) (length r + length extra)),
    (Nat.ltb_spec (length h) (length r)),
    (Nat.ltb_spec (length r) (length h)),
    (Nat.ltb_spec (length r + length extra) (length h)); done || lia.
Qed.

Lemma row_dict_key_present (h r : list string) (key : string) :
  key ∈ h -> is_Some (DictReader.row_dict h r !! key).
Proof.
  intros Hin. rewrite <- (take_drop (length r) h) in Hin.
  apply elem_of_app in Hin as [Htake|Hdrop].
  - assert (Hd : is_Some (DictReader.dict_of_zip h r !! key)).
    { apply lookup_zip_present. left. by rewrite fst_zip_take. }
    unfold DictReader.row_dict.
    destruct (_ <? _)%nat; [done|].
    destruct (_ <? _)%nat; [by apply lookup_fill_present | done].
  - rewrite short_row_value_none by done. by eexists.
Qed.

End RowDicts.

(** X9. Fields beyond the last column of the header are ignored: adding
    fields at the end of a data row that already has one field per column
    does not change the outcome. *)
Theorem extra_fields_ignored
        (fieldnames row extra : list string) (before after : list (list string))
        (output_file : opened ()) (target_ids : gset string)
        (extract_all_flag : bool) :
  length fieldnames <= length row ->
  create_fasta_from_csv
    (Opened (fieldnames :: before ++ (row ++ extra) :: after)%list)
    output_file target_ids extract_all_flag
  = create_fasta_from_csv
      (Opened (fieldnames :: before ++ row :: after)%list)
      output_file target_ids extract_all_flag.
Proof.
  intros Hlen. unfold create_fasta_from_csv. cbn [DictReader.fieldnames head].
  destruct row as [|x row].
  - destruct fieldnames; [reflexivity | simpl in Hlen; lia].
  - unfold DictReader.rows. rewrite !List.filter_app, !map_app.
    change ((x :: row) ++ extra)%list with (x :: (row ++ extra))%list.
    cbn [List.filter length Nat.eqb negb map].
    change (x :: (row ++ extra))%list with ((x :: row) ++ extra)%list.
    by rewrite row_dict_extra_fields.
Qed.

Lemma extra_fields_ignored_witness :
  length standard_header <= length ["X1"; "a"; "ACGT"]
  /\ create_fasta_from_csv
       (Opened (standard_header
                  :: [] ++ (["X1"; "a"; "ACGT"] ++ ["note"]) :: [])%list)
       (Opened ()) ∅ true
     = Outcome (Success 1) (Some [">X1_a" +:+ NL; "ACGT" +:+ NL]).
Proof.
  assert (Hlen : length standard_header <= length ["X1"; "a"; "ACGT"])
    by (simpl; lia).
  split; [exact Hlen|].
  rewrite (extra_fields_ignored standard_header ["X1"; "a"; "ACGT"] ["note"]
             [] [] (Opened ()) ∅ true Hlen).
  vm_compute. reflexivity.
Defined.

(** X10. Once the header check has passed, each of the three required
    names is a key of every row the loop sees, so the defaults given to
    [row.get] (None, "N/A" and the empty string) are never returned: the
    value read is the same whatever the default. *)
Theorem get_defaults_never_used
        (fieldnames : list string) (rest : list (list string))
        (row : gmap string (option string)) (key : string)
        (default default' : option string) :
  has_required_headers fieldnames = true ->
  row ∈ DictReader.rows (fieldnames :: rest) ->
  key ∈ required_headers ->
  is_Some (row !! key)
  /\ DictReader.get row key default = DictReader.get row key default'.
Proof.
  intros Hhdr Hrow Hkey.
  assert (Hin : key ∈ fieldnames).
  { unfold has_required_headers in Hhdr. rewrite forallb_forall in Hhdr.
    apply list_elem_of_In, Hhdr in Hkey. by apply bool_decide_eq_true in Hkey. }
  unfold DictReader.rows in Hrow.
  apply list_elem_of_In, in_map_iff in Hrow as (r & <- & _).
  pose proof (row_dict_key_present fieldnames r key Hin) as [v Hv].
  split; [by eexists|]. unfold DictReader.get. by rewrite Hv.
Qed.

Lemma get_defaults_never_used_witness :
  has_required_headers standard_header = true
  /\ DictReader.row_dict standard_header ["X1"]
     ∈ DictReader.rows [standard_header; ["X1"]]
  /\ NAME_COLUMN ∈ required_headers
  /\ DictReader.get (DictReader.row_dict standard_header ["X1"])
                    NAME_COLUMN (Some "N/A")
     = DictReader.get (DictReader.row_dict standard_header ["X1"])
                      NAME_COLUMN None.
Proof.
  assert (Hhdr : has_required_headers standard_header = true)
    by (vm_compute; reflexivity).
  assert (Hrow : DictReader.row_dict standard_header ["X1"]
                 ∈ DictReader.rows [standard_header; ["X1"]])
    by (apply list_elem_of_here).
  assert (Hkey : NAME_COLUMN ∈ required_headers) by by_decision.
  split; [exact Hhdr|]. split; [exact Hrow|]. split; [exact Hkey|].
  exact (proj2 (get_defaults_never_used _ _ _ _ (Some "N/A") None
                  Hhdr Hrow Hkey)).
Defined.

(** X11. Columns are found by name, wherever they stand: when no name is
    repeated in the header, the value read for a column is the field of the
    row at the position of that column's name. *)
Theorem column_found_by_name
        (fieldnames row : list string) (i : nat) (key v : string)
        (default : option string) :
  NoDup fieldnames ->
  fieldnames !! i = Some key ->
  row !! i = Some v ->
  DictReader.get (DictReader.row_dict fieldnames row) key default = Some v.
Proof.
  intros Hnd Hkey Hv.
  assert (Hi : i < length row) by (by eapply lookup_lt_Some).
  assert (Hzip : DictReader.dict_of_zip fieldnames row !! key = Some (Some v)).
  { apply lookup_zip_value.
    - rewrite fst_zip_take.
      rewrite <- (take_drop (length row) fieldnames) in Hnd.
      by apply NoDup_app in Hnd as [? _].
    - apply list_elem_of_lookup. exists i.
      apply lookup_zip_with_Some. by exists key, v. }
  assert (Hnot : key ∉ drop (length row) fieldnames).
  { rewrite <- (take_drop (length row) fieldnames) in Hnd.
    apply NoDup_app in Hnd as (_ & Hdisj & _). apply Hdisj.
    apply list_elem_of_lookup. exists i. by rewrite lookup_take_lt. }
  unfold DictReader.get, DictReader.row_dict.
  destruct (_ <? _)%nat; [by rewrite Hzip|].
  destruct (_ <? _)%nat; [|by rewrite Hzip].
  by rewrite lookup_fill_other, Hzip.
Qed.

Lemma column_found_by_name_witness :
  NoDup ["NOTES"; "PROTEIN_SEQUENCE"; "SEQ_ID"; "SHORT_NAME"]
  /\ ["NOTES"; "PROTEIN_SEQUENCE"; "SEQ_ID"; "SHORT_NAME"] !! 1
     = Some SEQUENCE_COLUMN
  /\ ["n"; "ACGT"; "X1"; "a"] !! 1 = Some "ACGT"
  /\ DictReader.get
       (DictReader.row_dict ["NOTES"; "PROTEIN_SEQUENCE"; "SEQ_ID"; "SHORT_NAME"]
                            ["n"; "ACGT"; "X1"; "a"])
       SEQUENCE_COLUMN (Some "") = Some "ACGT".
Proof.
  assert (Hnd : NoDup ["NOTES"; "PROTEIN_SEQUENCE"; "SEQ_ID"; "SHORT_NAME"])
    by by_decision.
  split; [exact Hnd|]. split; [reflexivity|]. split; [reflexivity|].
  exact (column_found_by_name _ ["n"; "ACGT"; "X1"; "a"] 1 SEQUENCE_COLUMN
           "ACGT" (Some "") Hnd eq_refl eq_refl).
Defined.

(** * Properties of the entry point *)

(** ** Trimming, splitting and lowering *)

Section InputStrings.

Implicit Types (s t : string) (c sep : ascii) (P : ascii -> bool).

Lemma lstrip_starts_clean s :
  match PyStr.lstrip s with
  | EmptyString => True
  | String c _ => PyStr.isspace c = false
  end.
Proof.
  induction s as [|c s IH]; simpl; [done|].
  destruct (PyStr.isspace c) eqn:E; [exact IH | exact E].
Qed.

Lemma rstrip_idem s : PyStr.rstrip (PyStr.rstrip s) = PyStr.rstrip s.
Proof.
  induction s as [|c s IH]; simpl; [done|].
  destruct (PyStr.isspace c && negb (PyStr.truthy (PyStr.rstrip s))) eqn:E;
    [done|].
  simpl. by rewrite IH, E.
Qed.

Lemma lstrip_rstrip_clean s :
  match s with
  | EmptyString => True
  | String c _ => PyStr.isspace c = false
  end ->
  PyStr.lstrip (PyStr.rstrip s) = PyStr.rstrip s.
Proof.
  destruct s as [|c s]; simpl; [done|]. intros Hc.
  rewrite Hc. simpl. by rewrite Hc.
Qed.

Lemma strip_idem s : PyStr.strip (PyStr.strip s) = PyStr.strip s.
Proof.
  unfold PyStr.strip.
  rewrite (lstrip_rstrip_clean (PyStr.lstrip s)) by apply lstrip_starts_clean.
  apply rstrip_idem.
Qed.

Lemma forall_chars_lstrip P s :
  forall_chars P s = true -> forall_chars P (PyStr.lstrip s) = true.
Proof.
  induction s as [|c s IH]; simpl; [done|]. intros Hs.
  destruct (PyStr.isspace c); [|done].
  apply andb_true_iff in Hs as [_ Hs]. by apply IH.
Qed.

Lemma forall_chars_rstrip P s :
  forall_chars P s = true -> forall_chars P (PyStr.rstrip s) = true.
Proof.
  induction s as [|c s IH]; simpl; [done|]. intros Hs.
  apply andb_true_iff in Hs as [Hc Hs].
  destruct (_ && _); [done|]. simpl. by rewrite Hc, IH.
Qed.

Lemma forall_chars_strip P s :
  forall_chars P s = true -> forall_chars P (PyStr.strip s) = true.
Proof. intros Hs. by apply forall_chars_rstrip, forall_chars_lstrip. Qed.

Lemma lstrip_spaces s :
  forall_chars PyStr.isspace s = true -> PyStr.lstrip s = "".
Proof.
  induction s as [|c s IH]; simpl; [done|]. intros Hs.
  apply andb_true_iff in Hs as [Hc Hs]. rewrite Hc. by apply IH.
Qed.

Lemma strip_spaces s :
  forall_chars PyStr.isspace s = true -> PyStr.strip s = "".
Proof. intros Hs. unfold PyStr.strip. by rewrite lstrip_spaces. Qed.

Lemma split_never_empty sep s : PyInput.split sep s <> [].
Proof.
  destruct s as [|c s]; simpl; [done|].
  destruct (Ascii.eqb c sep); [done|].
  by destruct (PyInput.split sep s).
Qed.

(** The pieces hold no separator, and every character of a piece is a
    character of the string. *)
Lemma split_pieces P sep s :
  forall_chars (fun c => Ascii.eqb c sep || P c) s = true ->
  Forall (fun piece =>
            forall_chars (fun c => negb (Ascii.eqb c sep) && P c) piece = true)
         (PyInput.split sep s).
Proof.
  induction s as [|c s IH]; simpl; [by repeat constructor|]. intros Hs.
  apply andb_true_iff in Hs as [Hc Hs]. specialize (IH Hs).
  destruct (Ascii.eqb c sep) eqn:E; [by constructor|].
  destruct (PyInput.split sep s) as [|piece pieces].
  - repeat constructor. simpl. rewrite E. simpl in Hc. by rewrite Hc.
  - inversion IH as [|? ? Hpiece Hrest]; subst.
    constructor; [|done]. simpl. rewrite E. simpl in Hc. by rewrite Hc, Hpiece.
Qed.

Lemma split_app sep s t :
  PyInput.split sep (s +:+ String sep t)
  = (PyInput.split sep s ++ PyInput.split sep t)%list.
Proof.
  induction s as [|c s IH].
  - change ("" +:+ String sep t) with (String sep t).
    simpl. by rewrite Ascii.eqb_refl.
  - change (String c s +:+ String sep t) with (String c (s +:+ String sep t)).
    simpl. rewrite IH.
    destruct (Ascii.eqb c sep); [done|].
    pose proof (split_never_empty sep s).
    by destruct (PyInput.split sep s).
Qed.

Lemma forall_chars_weaken P (Q : ascii -> bool) s :
  (forall c, P c = true -> Q c = true) ->
  forall_chars P s = true -> forall_chars Q s = true.
Proof.
  intros HPQ. induction s as [|c s IH]; simpl; [done|]. intros Hs.
  apply andb_true_iff in Hs as [Hc Hs]. by rewrite (HPQ c Hc), IH.
Qed.

Lemma forall_chars_true s : forall_chars (fun _ => true) s = true.
Proof. induction s as [|c s IH]; simpl; done. Qed.

Lemma lower_char_a c :
  Ascii.eqb (PyInput.lower_char c) "a" = Ascii.eqb c "a" || Ascii.eqb c "A".
Proof. destruct c as [[] [] [] [] [] [] [] []]; reflexivity. Qed.

Lemma lower_char_l c :
  Ascii.eqb (PyInput.lower_char c) "l" = Ascii.eqb c "l" || Ascii.eqb c "L".
Proof. destruct c as [[] [] [] [] [] [] [] []]; reflexivity. Qed.

End InputStrings.

(** ** The selection typed by the user *)

Section Selection.

Implicit Types (id_input id : string).

Lemma extract_all_spelling id_input :
  EXTRACT_ALL id_input = true -> id_input ∈ all_spellings.
Proof.
  unfold EXTRACT_ALL.
  destruct id_input as [|c1 [|c2 [|c3 [|c4 s]]]]; simpl; try discriminate.
  - rewrite lower_char_a. destruct (_ || _); discriminate.
  - rewrite lower_char_a, lower_char_l.
    destruct (_ || _); [|discriminate]. destruct (_ || _); discriminate.
  - rewrite lower_char_a, !lower_char_l. intros H.
    destruct (Ascii.eqb_spec c1 "a"), (Ascii.eqb_spec c1 "A"),
      (Ascii.eqb_spec c2 "l"), (Ascii.eqb_spec c2 "L"),
      (Ascii.eqb_spec c3 "l"), (Ascii.eqb_spec c3 "L");
      subst; try discriminate; by_decision.
  - rewrite lower_char_a, !lower_char_l.
    destruct (_ || _); [|discriminate]. destruct (_ || _); [|discriminate].
    destruct (_ || _); discriminate.
Qed.

Lemma spelling_extract_all id_input :
  id_input ∈ all_spellings -> EXTRACT_ALL id_input = true.
Proof.
  intros H. unfold all_spellings in H.
  repeat (apply elem_of_cons in H as [->|H]; [reflexivity|]).
  by apply elem_of_nil in H.
Qed.

Lemma extract_all_no_other_char (P : ascii -> bool) id_input :
  P "a"%char = true -> P "A"%char = true ->
  P "l"%char = true -> P "L"%char = true ->
  EXTRACT_ALL id_input = true -> forall_chars P id_input = true.
Proof.
  intros Ha HA Hl HL H. apply extract_all_spelling in H.
  unfold all_spellings in H.
  repeat (apply elem_of_cons in H as [->|H];
          [simpl; by rewrite ?Ha, ?HA, ?Hl, ?HL|]).
  by apply elem_of_nil in H.
Qed.

Lemma forall_chars_app_char (P : ascii -> bool) (a b : string) (c : ascii) :
  forall_chars P (a +:+ String c b) = true -> P c = true.
Proof.
  induction a as [|x a IH].
  - change ("" +:+ String c b) with (String c b). simpl.
    intros H. by apply andb_true_iff in H as [? _].
  - change (String x a +:+ String c b) with (String x (a +:+ String c b)).
    simpl. intros H. apply andb_true_iff in H as [_ H]. by apply IH.
Qed.

Lemma extract_all_without_comma (a b : string) :
  EXTRACT_ALL (a +:+ String COMMA b) = false.
Proof.
  apply not_true_is_false. intros H.
  apply (extract_all_no_other_char (fun c => negb (Ascii.eqb c COMMA))) in H;
    try reflexivity.
  by apply forall_chars_app_char in H.
Qed.

Lemma target_id_in_list id_input id :
  id ∈ TARGET_IDS_LIST id_input ->
  id <> ""
  /\ forall_chars (fun c => negb (Ascii.eqb c COMMA)) id = true
  /\ PyStr.strip id = id.
Proof.
  unfold TARGET_IDS_LIST. intros Hin.
  apply list_elem_of_In, filter_In in Hin as [Hin Htruthy].
  apply in_map_iff in Hin as (piece & <- & Hpiece).
  split; [|split].
  - intros E. by rewrite E in Htruthy.
  - pose proof (split_pieces (fun _ => true) COMMA id_input) as Hall.
    rewrite Forall_forall in Hall.
    apply forall_chars_strip.
    eapply forall_chars_weaken; [|apply Hall].
    + intros c Hc. by apply andb_true_iff in Hc as [? _].
    + eapply forall_chars_weaken; [|apply forall_chars_true].
      intros c _. apply orb_true_r.
    + by apply list_elem_of_In.
  - apply strip_idem.
Qed.

Lemma target_id_in_set id_input id :
  id ∈ TARGET_IDS_SET id_input -> id ∈ TARGET_IDS_LIST id_input.
Proof.
  unfold TARGET_IDS_SET. destruct (EXTRACT_ALL id_input).
  - intros H. by apply elem_of_empty in H.
  - intros H. by apply elem_of_list_to_set in H.
Qed.

Lemma target_ids_list_spaces id_input :
  forall_chars (fun c => Ascii.eqb c COMMA || PyStr.isspace c) id_input = true ->
  TARGET_IDS_LIST id_input = [].
Proof.
  intros H. apply split_pieces in H. unfold TARGET_IDS_LIST.
  induction H as [|piece pieces Hpiece _ IH]; [reflexivity|].
  simpl. rewrite strip_spaces; [exact IH|].
  eapply forall_chars_weaken; [|exact Hpiece].
  intros c Hc. by apply andb_true_iff in Hc as [_ ?].
Qed.

Lemma target_ids_list_app (a b : string) :
  TARGET_IDS_LIST (a +:+ String COMMA b)
  = (TARGET_IDS_LIST a ++ TARGET_IDS_LIST b)%list.
Proof.
  unfold TARGET_IDS_LIST. by rewrite split_app, map_app, List.filter_app.
Qed.

End Selection.

(** X12. The selection is "all sequences" exactly when the text typed,
    once trimmed, is the word all in lower or upper case letters, in any
    mixture: eight spellings, and nothing else. *)
Theorem extract_all_iff_spelling (id_input : string) :
  EXTRACT_ALL id_input = true <->
  id_input ∈ ["all"; "alL"; "aLl"; "aLL"; "All"; "AlL"; "ALl"; "ALL"].
Proof. split; [apply extract_all_spelling | apply spelling_extract_all]. Qed.

(** X13. Every identifier of the target set built from the text typed is
    non-empty, holds no comma, and has no white space at either end. *)
Theorem target_ids_are_trimmed_words (id_input id : string) :
  id ∈ TARGET_IDS_SET id_input ->
  id <> ""
  /\ forall_chars (fun c => negb (Ascii.eqb c COMMA)) id = true
  /\ PyStr.strip id = id.
Proof. intros H. by apply (target_id_in_list id_input), target_id_in_set. Qed.

Lemma target_ids_are_trimmed_words_witness :
  "X2" ∈ TARGET_IDS_SET " X1 ,, X2 , "
  /\ "X2" <> ""
  /\ forall_chars (fun c => negb (Ascii.eqb c COMMA)) "X2" = true
  /\ PyStr.strip "X2" = "X2".
Proof.
  assert (Hin : "X2" ∈ TARGET_IDS_SET " X1 ,, X2 , ") by by_decision.
  split; [exact Hin|].
  exact (target_ids_are_trimmed_words " X1 ,, X2 , " "X2" Hin).
Defined.

(** X14. With a target set built from the text typed, the test that the
    identifier of a row is non-empty adds nothing: a row matches exactly
    when its identifier is a string that belongs to the set. *)
Theorem is_match_with_typed_ids (id_input : string) (seq_id : option string) :
  is_match false (TARGET_IDS_SET id_input) seq_id
  = match seq_id with
    | Some s => bool_decide (s ∈ TARGET_IDS_SET id_input)
    | None => false
    end.
Proof.
  unfold is_match. destruct seq_id as [s|]; [|reflexivity]. simpl.
  destruct s as [|c s]; [|reflexivity]. simpl.
  symmetry. apply bool_decide_eq_false_2. intros Hin.
  apply target_id_in_set, target_id_in_list in Hin as [Hne _]. done.
Qed.

(** X15. When the text typed for the selection holds nothing but commas
    and white space (the empty text included), the entry point cancels:
    [create_fasta_from_csv] is not called, whatever the paths and the file
    system. *)
Theorem blank_selection_cancels
        (fs : filesystem) (line1 line2 line3 : string) :
  forall_chars (fun c => Ascii.eqb c COMMA || PyStr.isspace c) line3 = true ->
  main fs line1 line2 line3 = Cancelled.
Proof.
  intros H. apply forall_chars_strip in H. unfold main.
  assert (Hall : EXTRACT_ALL (PyStr.strip line3) = false).
  { apply not_true_is_false. intros Hall.
    apply extract_all_spelling in Hall. unfold all_spellings in Hall.
    repeat (apply elem_of_cons in Hall as [E|Hall];
            [rewrite E in H; discriminate H|]).
    by apply elem_of_nil in Hall. }
  unfold TARGET_IDS_SET. rewrite Hall, target_ids_list_spaces by done.
  reflexivity.
Qed.

Lemma blank_selection_cancels_witness :
  forall_chars (fun c => Ascii.eqb c COMMA || PyStr.isspace c) " , ,, " = true
  /\ main (Filesystem (fun _ => true) (fun _ => Opened [standard_header])
                      (fun _ => Opened ()))
          "in.csv" "out.fasta" " , ,, " = Cancelled.
Proof.
  assert (H : forall_chars (fun c => Ascii.eqb c COMMA || PyStr.isspace c)
                " , ,, " = true) by reflexivity.
  split; [exact H|].
  exact (blank_selection_cancels _ "in.csv" "out.fasta" " , ,, " H).
Defined.

(** X16. The entry point calls [create_fasta_from_csv] only when the
    trimmed input path exists and there is something to select: all
    sequences, or a set with at least one identifier.  The call then gets
    the trimmed paths. *)
Theorem main_runs_only_with_selection
        (fs : filesystem) (line1 line2 line3 : string) (o : outcome) :
  main fs line1 line2 line3 = Ran o ->
  path_exists fs (PyStr.strip line1) = true
  /\ (EXTRACT_ALL (PyStr.strip line3) = true
      \/ exists id, id ∈ TARGET_IDS_SET (PyStr.strip line3))
  /\ o = create_fasta_from_csv
           (open_read fs (PyStr.strip line1))
           (open_write fs (PyStr.strip line2))
           (TARGET_IDS_SET (PyStr.strip line3))
           (EXTRACT_ALL (PyStr.strip line3)).
Proof.
  unfold main.
  destruct (EXTRACT_ALL (PyStr.strip line3)) eqn:Hall; simpl.
  - destruct (path_exists fs _); simpl; [|discriminate].
    intros [= <-]. split; [done|]. split; [by left | done].
  - destruct (bool_decide _) eqn:Hempty; [discriminate|].
    destruct (path_exists fs _); simpl; [|discriminate].
    intros [= <-]. split; [done|]. split; [|done]. right.
    apply bool_decide_eq_false in Hempty.
    by apply set_choose_L in Hempty.
Qed.

Lemma main_runs_only_with_selection_witness :
  main (Filesystem (fun _ => true)
          (fun _ => Opened [standard_header; ["X1"; "a"; "ACGT"]])
          (fun _ => Opened ()))
       " in.csv " " out.fasta " " X1 "
  = Ran (Outcome (Success 1) (Some [">X1_a" +:+ NL; "ACGT" +:+ NL]))
  /\ exists id, id ∈ TARGET_IDS_SET (PyStr.strip " X1 ").
Proof.
  assert (H : main (Filesystem (fun _ => true)
                      (fun _ => Opened [standard_header; ["X1"; "a"; "ACGT"]])
                      (fun _ => Opened ()))
                   " in.csv " " out.fasta " " X1 "
              = Ran (Outcome (Success 1) (Some [">X1_a" +:+ NL; "ACGT" +:+ NL])))
    by (vm_compute; reflexivity).
  split; [exact H|].
  destruct (main_runs_only_with_selection _ _ _ _ _ H) as (_ & [Hall|Hid] & _);
    [discriminate Hall | exact Hid].
Defined.

(** X17. The comma list is read piece by piece: the identifiers of
    [a,b] are those of [a] followed by those of [b].  A text with a comma
    never means "all sequences", so swapping the two parts of a list gives
    the same target set. *)
Theorem target_ids_of_comma_list (a b : string) :
  TARGET_IDS_LIST (a +:+ String COMMA b)
  = (TARGET_IDS_LIST a ++ TARGET_IDS_LIST b)%list
  /\ EXTRACT_ALL (a +:+ String COMMA b) = false
  /\ TARGET_IDS_SET (a +:+ String COMMA b)
     = TARGET_IDS_SET (b +:+ String COMMA a).
Proof.
  split; [apply target_ids_list_app|].
  split; [apply extract_all_without_comma|].
  unfold TARGET_IDS_SET.
  rewrite !extract_all_without_comma, !target_ids_list_app.
  rewrite !list_to_set_app_L. apply (comm_L (∪)).
Qed.

(** ** Counted entries are complete *)

Section CountedEntries.




End CountedEntries.



(** * The round trip through the file text *)

Section FileText.

Lemma no_LF_app (a b : string) : no_LF (a +:+ b) = no_LF a && no_LF b.
Proof.
  induction a as [|c a IH]; [reflexivity|].
  change (String c a +:+ b) with (String c (a +:+ b)).
  simpl. by rewrite IH, andb_assoc.
Qed.

Lemma no_LF_join (l : list string) :
  Forall (fun line => no_LF line = true) l -> no_LF (PyStr.join l) = true.
Proof.
  induction 1 as [|line l Hline _ IH]; [reflexivity|].
  by rewrite join_cons, no_LF_app, Hline, IH.
Qed.

(** The lines read back hold no line feed. *)
Lemma lines_from_no_LF (text : string) : forall cur,
  no_LF cur = true ->
  Forall (fun line => no_LF line = true) (lines_from cur text).
Proof.
  induction text as [|c text IH]; intros cur Hcur; simpl.
  - destruct cur; by repeat constructor.
  - destruct (Ascii.eqb c LF) eqn:E.
    + constructor; [done | by apply IH].
    + apply IH. rewrite no_LF_app, Hcur. simpl. by rewrite E.
Qed.

(** Whatever was written, a payload read back from the file text holds no
    line feed: one that holds a line feed is never read back as it was. *)
Lemma read_back_needs_no_LF (p : string) :
  PyStr.join (lines_from "" (PyStr.join (sequence_lines p))) = p ->
  no_LF p = true.
Proof.
  intros <-. by apply no_LF_join, lines_from_no_LF.
Qed.

End FileText.




(** * A short row before a matching row *)

(** C6. The claim does not hold on the code for a source with a short
    matching row.  With the set [{"X1"}] and the rows [X1, a] (no sequence
    field), [X2, b, GG] and [X1, c, TT], the claim gives the entry of the
    third row in the file, since that row matches and has a non-empty
    payload; the code raises on the first row, reports through
    [except Exception], and the third row is never written: the file is
    opened and left empty. *)
Theorem matching_row_after_short_row_not_written :
  create_fasta_from_csv
    (Opened [["SEQ_ID"; "SHORT_NAME"; "PROTEIN_SEQUENCE"];
             ["X1"; "a"]; ["X2"; "b"; "GG"]; ["X1"; "c"; "TT"]])
    (Opened ()) {["X1"]} false
  = Outcome (Unexpected AttributeError) (Some [])
  /\ row_emitted false {["X1"]}
       (DictReader.row_dict ["SEQ_ID"; "SHORT_NAME"; "PROTEIN_SEQUENCE"]
                            ["X1"; "c"; "TT"]) = true.
Proof. split; vm_compute; reflexivity. Qed.
